(** * VertexAIImageCaptioner: a shallow embedding of [captioner.py]

    The component is glue around the Vertex AI SDK: its constructor logs in
    and loads a pretrained model, [run] forwards one image to the model's
    [get_captions], and [to_dict] / [from_dict] serialise the constructor
    arguments.  The SDK is external, so it appears here as an interface
    ([SDK]) over an abstract world; every call the component makes to it is
    recorded, which is what the statements about forwarding, retrying and
    re-authentication are about. *)

From Stdlib Require Import ZArith String List Strings.Byte.
From stdpp Require Import gmap strings list fin_maps.

Local Open Scope string_scope.

(** ** Python values and exceptions *)

(** The values that travel through keyword arguments and serialised
    dictionaries.  A [dict] with string keys is a [gmap]: equality of maps is
    Python's [==] on dicts, which ignores insertion order. *)
#[warnings="-register-all"]
Inductive pyval : Type :=
| PNone
| PBool (b : bool)
| PInt (z : Z)
| PStr (s : string)
| PBytes (bs : list byte)
| PList (l : list pyval)
| PDict (d : gmap string pyval).

(** A raised exception: the name of its class and a short detail.  The detail
    stands for the message; for a duplicated keyword it is the keyword. *)
Record exn : Type := Exn { exn_class : string; exn_detail : string }.

Definition TypeError (detail : string) : exn := Exn "TypeError" detail.
Definition DeserializationError (detail : string) : exn :=
  Exn "DeserializationError" detail.
Definition ValueError (detail : string) : exn := Exn "ValueError" detail.

(** [v == s] for a string literal [s]: only a [str] with the same characters
    compares equal. *)
Definition py_eq_str (v : pyval) (s : string) : bool :=
  match v with
  | PStr s' => bool_decide (s' = s)
  | _ => false
  end.

(** ** Computations that may raise and that thread a state *)

Definition M (S A : Type) : Type := S → (exn + A) * S.

#[global] Instance M_ret {S} : MRet (M S) := λ A (a : A) s, (inr a, s).

#[global] Instance M_bind {S} : MBind (M S) := λ A B (f : A → M S B) (m : M S A) s,
  match m s with
  | (inl e, s') => (inl e, s')
  | (inr a, s') => f a s'
  end.

Definition raise {S A} (e : exn) : M S A := λ s, (inl e, s).

(** The outcome of a call that touches no state. *)
Definition of_result {S A} (r : exn + A) : M S A := λ s, (r, s).

(** ** What the component imports *)

(** [haystack.dataclasses.byte_stream.ByteStream]: the source reads [data]
    only; the other two fields are the dataclass's remaining attributes. *)
Record ByteStream : Type := {
  data : list byte;
  meta : gmap string pyval;
  mime_type : option string;
}.

(** Modelled from the spec: the class [vertexai.vision_models.Image], which
    the source imports and which is absent from it.  An instance is the
    external image representation wrapping a payload: [Image bs] is the
    object holding the bytes [bs]. *)
Inductive vision_Image : Type :=
| Image (image_bytes : list byte).

(** Modelled from the spec: the call of that class on a payload, absent from
    the source like the class.  The spec speaks of non-empty payloads only:
    the SDK refuses an empty one with a [ValueError], and wraps any other
    without looking into it. *)
Definition new_Image (image_bytes : list byte) : exn + vision_Image :=
  match image_bytes with
  | [] => inl (ValueError "Either image_bytes or gcs_uri must be provided.")
  | _ :: _ => inr (Image image_bytes)
  end.

(** The three SDK entry points the source calls.  Each may raise, returns a
    result otherwise, and may change the external world (the cloud session,
    quotas, the network). *)
Record SDK (World Handle : Type) : Type := {
  (** [vertexai.init(project=..., location=...)] *)
  vertexai_init : pyval → pyval → World → (exn + unit) * World;
  (** [ImageTextModel.from_pretrained(model_name)] *)
  from_pretrained : pyval → World → (exn + Handle) * World;
  (** [model.get_captions] with keyword [image] and the unpacked options *)
  get_captions :
    Handle → vision_Image → gmap string pyval → World → (exn + pyval) * World;
}.
Arguments vertexai_init {World Handle} _ _ _ _.
Arguments from_pretrained {World Handle} _ _ _.
Arguments get_captions {World Handle} _ _ _ _ _.

(** A call that writes some keywords out and unpacks a dict [d] after them:
    Python raises [TypeError] at the call site, before the callee is entered,
    when [d] repeats one of the written keywords. *)
Definition repeated_keyword {V} (explicit : list string) (d : gmap string V)
  : option string :=
  List.find (λ k, bool_decide (is_Some (d !! k))) explicit.
Arguments repeated_keyword : simpl never.

(** The component's fully qualified class name, its serialised ["type"]. *)
Definition qualified_name : string :=
  "haystack_integrations.components.generators.google_vertex.captioner.VertexAIImageCaptioner".

(** The names [__init__] keeps for itself never reach [_kwargs]. *)
Definition reserved_free (kwargs : gmap string pyval) : Prop :=
  kwargs !! "model" = None ∧ kwargs !! "project_id" = None ∧
  kwargs !! "location" = None.

Section Captioner.
Context {World Handle : Type}.
Variable sdk : SDK World Handle.

(** A call made to the SDK, as a test double would observe it. *)
Inductive sdk_call : Type :=
| CallInit (project location : pyval)
| CallFromPretrained (model_name : pyval)
| CallGetCaptions (model : Handle) (image : vision_Image)
    (kwargs : gmap string pyval).

(** Everything outside the component instance: the external world, the
    SDK calls made so far, and the records emitted through the module's
    [logger]. *)
Record state : Type := {
  world : World;
  calls : list sdk_call;
  log_records : list string;
}.

Definition sdk_invoke {A} (c : sdk_call)
    (f : World → (exn + A) * World) : M state A := λ s,
  let '(r, w) := f (world s) in
  (r, {| world := w; calls := calls s ++ [c]; log_records := log_records s |}).

(** The instance attributes assigned by [__init__]. *)
Record VertexAIImageCaptioner : Type := {
  _model_name : pyval;
  _project_id : pyval;
  _location : pyval;
  _kwargs : gmap string pyval;
  _model : Handle;
}.

(** The keywords left for [**kwargs] once the keyword-only parameters
    [model], [project_id] and [location] have taken theirs. *)
Definition extra_options (kw : gmap string pyval) : gmap string pyval :=
  delete "model" (delete "project_id" (delete "location" kw)).

(** Calling the class with the keywords [kw]: they are bound to the
    keyword-only parameters [model] (default ["imagetext"]), [project_id]
    and [location] (default [None]), the rest is collected in [kwargs], and
    the body runs.  [self] is bound positionally, so a keyword of that name
    is a [TypeError]. *)
Definition __init__ (kw : gmap string pyval) : M state VertexAIImageCaptioner :=
  match kw !! "self" with
  | Some _ => raise (TypeError "self")
  | None =>
      let model := default (PStr "imagetext") (kw !! "model") in
      let project_id := default PNone (kw !! "project_id") in
      let location := default PNone (kw !! "location") in
      let kwargs := extra_options kw in
      _ ← sdk_invoke (CallInit project_id location)
            (vertexai_init sdk project_id location);
      m ← sdk_invoke (CallFromPretrained model) (from_pretrained sdk model);
      mret {| _model_name := model; _project_id := project_id;
              _location := location; _kwargs := kwargs; _model := m |}
  end.

(** *** Methods: the state is the instance together with the rest *)

Definition self_attr {A} (f : VertexAIImageCaptioner → A)
  : M (VertexAIImageCaptioner * state) A := λ cs, (inr (f cs.1), cs).

Definition outside {A} (m : M state A)
  : M (VertexAIImageCaptioner * state) A := λ cs,
  let '(r, s) := m cs.2 in (r, (cs.1, s)).

(** The serialised form: the type identifier and the constructor keywords. *)
Definition serialized_as (init_parameters : gmap string pyval)
  : gmap string pyval :=
  <["type" := PStr qualified_name]>
    (<["init_parameters" := PDict init_parameters]> ∅).

(** Modelled from the spec: [haystack.core.serialization.default_to_dict],
    imported by the source, called with the object first and the constructor
    keywords after it.  Its first parameter is named [obj] and takes the
    object, so a keyword of that name is a [TypeError]; otherwise it returns
    the type identifier of the object's class together with the keywords. *)
Definition default_to_dict (init_parameters : gmap string pyval)
  : exn + gmap string pyval :=
  match init_parameters !! "obj" with
  | Some _ => inl (TypeError "obj")
  | None => inr (serialized_as init_parameters)
  end.

Definition to_dict : M (VertexAIImageCaptioner * state) (gmap string pyval) :=
  model ← self_attr _model_name;
  project_id ← self_attr _project_id;
  location ← self_attr _location;
  kwargs ← self_attr _kwargs;
  match repeated_keyword ["model"; "project_id"; "location"] kwargs with
  | Some k => raise (TypeError k)
  | None =>
      of_result (default_to_dict
                   (<["model" := model]>
                      (<["project_id" := project_id]>
                         (<["location" := location]> kwargs))))
  end.

(** Modelled from the spec: [haystack.core.serialization.default_from_dict],
    imported by the source; it rejects data whose ["type"] is missing or is
    not the class's identifier with a [DeserializationError], and otherwise
    calls the class with the ["init_parameters"] as keywords (none when the
    entry is absent). *)
Definition default_from_dict {T} (cls : gmap string pyval → M state T)
    (data : gmap string pyval) : M state T :=
  let init_params := default (PDict ∅) (data !! "init_parameters") in
  match data !! "type" with
  | None => raise (DeserializationError "Missing 'type' in serialization data")
  | Some t =>
      if py_eq_str t qualified_name then
        match init_params with
        | PDict kw => cls kw
        | _ => raise (TypeError "argument after ** must be a mapping")
        end
      else raise (DeserializationError "type mismatch")
  end.

Definition from_dict (data : gmap string pyval) : M state VertexAIImageCaptioner :=
  default_from_dict __init__ data.

(** [self._model.get_captions] called with [image=img] and [kwargs]
    unpacked after it. *)
Definition call_get_captions (model : Handle) (img : vision_Image)
    (kwargs : gmap string pyval) : M state pyval :=
  match repeated_keyword ["image"] kwargs with
  | Some k => raise (TypeError k)
  | None =>
      sdk_invoke (CallGetCaptions model img kwargs)
        (get_captions sdk model img kwargs)
  end.

(** The callee [self._model.get_captions] is looked up first, then the
    written argument [Image(image.data)] is evaluated, then the stored
    options are unpacked, and only then is the call made. *)
Definition run (image : ByteStream)
  : M (VertexAIImageCaptioner * state) (gmap string pyval) :=
  model ← self_attr _model;
  img ← of_result (new_Image (data image));
  kwargs ← self_attr _kwargs;
  captions ← outside (call_get_captions model img kwargs);
  mret {[ "captions" := captions ]}.

(** The outcome of the constructor's body for given parameter values, in
    terms of the SDK's answers. *)
Definition construct (model project_id location : pyval) (kwargs : gmap string pyval)
    (s : state) : (exn + VertexAIImageCaptioner) * state :=
  let log1 := (calls s ++ [CallInit project_id location])%list in
  match vertexai_init sdk project_id location (world s) with
  | (inl e, w1) =>
      (inl e, {| world := w1; calls := log1; log_records := log_records s |})
  | (inr _, w1) =>
      let log2 := (log1 ++ [CallFromPretrained model])%list in
      match from_pretrained sdk model w1 with
      | (inl e, w2) =>
          (inl e, {| world := w2; calls := log2; log_records := log_records s |})
      | (inr m, w2) =>
          (inr {| _model_name := model; _project_id := project_id;
                  _location := location; _kwargs := kwargs; _model := m |},
           {| world := w2; calls := log2; log_records := log_records s |})
      end
  end.

(** What [to_dict] returns when it returns. *)
Definition serialized (c : VertexAIImageCaptioner) : gmap string pyval :=
  serialized_as
    (<["model" := _model_name c]>
       (<["project_id" := _project_id c]>
          (<["location" := _location c]> (_kwargs c)))).

(** The state after one captioning call that moved the world to [w]. *)
Definition after_get_captions (image : ByteStream)
    (c : VertexAIImageCaptioner) (s : state) (w : World) : state :=
  {| world := w;
     calls := calls s ++
              [CallGetCaptions (_model c) (Image (data image)) (_kwargs c)];
     log_records := log_records s |}.

End Captioner.

Arguments state : clear implicits.
Arguments sdk_call : clear implicits.
Arguments VertexAIImageCaptioner : clear implicits.
Arguments serialized {Handle} c.

(** ** Test doubles *)

Module Stub.
(** A double of the SDK.  Its world counts the requests it has served, a
    handle is the name of the loaded model, the only model it knows is
    ["imagetext"], and [get_captions] answers with a fixed outcome. *)
Definition sdk (captions : exn + pyval) : SDK nat pyval := {|
  vertexai_init _ _ w := (inr (), S w);
  from_pretrained name w :=
    if py_eq_str name "imagetext" then (inr name, S w)
    else (inl (Exn "NotFound" "model not found"), S w);
  get_captions _ _ _ w := (captions, S w);
|}.

Definition ab : pyval := PList [PStr "a"; PStr "b"].
Definition quota : exn := Exn "ResourceExhausted" "quota exceeded".

Definition fresh : state nat pyval :=
  {| world := 0; calls := []; log_records := [] |}.

Definition robot : ByteStream :=
  {| data := [x89; x50; x4e; x47]; meta := ∅; mime_type := None |}.

(** The same bytes with other attributes. *)
Definition robot_png : ByteStream :=
  {| data := [x89; x50; x4e; x47];
     meta := {["file" := PStr "robot1.png"]};
     mime_type := Some "image/png" |}.

(** The state any successful construction from [fresh] ends in when the
    project is ["p"] and the model the default one. *)
Definition built : state nat pyval :=
  {| world := 2;
     calls := [CallInit (PStr "p") PNone;
               CallFromPretrained (PStr "imagetext")];
     log_records := [] |}.

(** Constructed with [project_id="p", number_of_results=3]. *)
Definition kw3 : gmap string pyval :=
  <["project_id" := PStr "p"]> {["number_of_results" := PInt 3]}.

Definition captioner3 : VertexAIImageCaptioner pyval :=
  {| _model_name := PStr "imagetext"; _project_id := PStr "p";
     _location := PNone; _kwargs := {["number_of_results" := PInt 3]};
     _model := PStr "imagetext" |}.

(** Constructed with [project_id="p", image=0]. *)
Definition kw_image : gmap string pyval :=
  <["project_id" := PStr "p"]> {["image" := PInt 0]}.

Definition captioner_image : VertexAIImageCaptioner pyval :=
  {| _model_name := PStr "imagetext"; _project_id := PStr "p";
     _location := PNone; _kwargs := {["image" := PInt 0]};
     _model := PStr "imagetext" |}.

(** Constructed with [project_id="p", obj=1]. *)
Definition kw_obj : gmap string pyval :=
  <["project_id" := PStr "p"]> {["obj" := PInt 1]}.

Definition captioner_obj : VertexAIImageCaptioner pyval :=
  {| _model_name := PStr "imagetext"; _project_id := PStr "p";
     _location := PNone; _kwargs := {["obj" := PInt 1]};
     _model := PStr "imagetext" |}.

(** A byte stream with no bytes. *)
Definition empty_stream : ByteStream :=
  {| data := []; meta := ∅; mime_type := None |}.

(** Keywords naming a model the double does not know. *)
Definition kw_unknown : gmap string pyval := {["model" := PStr "no-such-model"]}.

(** A double whose login is refused: no credentials are set up. *)
Definition denied : SDK nat pyval := {|
  vertexai_init _ _ w :=
    (inl (Exn "DefaultCredentialsError" "no credentials"), S w);
  from_pretrained name w := (inr name, S w);
  get_captions _ _ _ w := (inr (PList []), S w);
|}.

(** A double whose caption tells how many requests were served before. *)
Definition counting : SDK nat pyval := {|
  vertexai_init _ _ w := (inr (), S w);
  from_pretrained name w := (inr name, S w);
  get_captions _ _ _ w := (inr (PList [PInt (Z.of_nat w)]), S w);
|}.

(** The state after rebuilding from [built]: a second login and load. *)
Definition rebuilt : state nat pyval :=
  {| world := 4;
     calls := [CallInit (PStr "p") PNone;
               CallFromPretrained (PStr "imagetext");
               CallInit (PStr "p") PNone;
               CallFromPretrained (PStr "imagetext")];
     log_records := [] |}.

(** Constructed with every named parameter written out. *)
Definition kw_full : gmap string pyval :=
  <["model" := PStr "imagetext"]>
    (<["project_id" := PStr "p"]>
       (<["location" := PStr "europe-west4"]>
          {["number_of_results" := PInt 3]})).

Definition captioner_full : VertexAIImageCaptioner pyval :=
  {| _model_name := PStr "imagetext"; _project_id := PStr "p";
     _location := PStr "europe-west4";
     _kwargs := {["number_of_results" := PInt 3]};
     _model := PStr "imagetext" |}.

Definition built_full : state nat pyval :=
  {| world := 2;
     calls := [CallInit (PStr "p") (PStr "europe-west4");
               CallFromPretrained (PStr "imagetext")];
     log_records := [] |}.
End Stub.

(** ** Properties *)

(** Unfolds the monadic plumbing so that a computation becomes a cascade of
    matches on the SDK's answers. *)
Ltac unfold_M :=
  unfold mbind, M_bind, mret, M_ret, raise, of_result, self_attr, outside,
    sdk_invoke in *;
  simpl in *.

Section CaptionerProperties.
Context {World Handle : Type}.
Variable sdk : SDK World Handle.

#[local] Abbreviation component := (VertexAIImageCaptioner Handle).
#[local] Abbreviation state := (state World Handle).

Implicit Types (kw kwargs data : gmap string pyval) (s : state) (c : component).

Lemma init_construct kw s :
  kw !! "self" = None →
  __init__ sdk kw s =
    construct sdk (default (PStr "imagetext") (kw !! "model"))
      (default PNone (kw !! "project_id")) (default PNone (kw !! "location"))
      (extra_options kw) s.
Proof.
  intros Hself. unfold __init__, construct. rewrite Hself. unfold_M.
  destruct (vertexai_init sdk _ _ (world s)) as [[e|[]] w1]; [done|]. simpl.
  by destruct (from_pretrained sdk _ w1) as [[e|m] w2].
Qed.

Lemma construct_inr model project_id location kwargs s c s' :
  construct sdk model project_id location kwargs s = (inr c, s') →
  _model_name c = model ∧ _project_id c = project_id ∧
  _location c = location ∧ _kwargs c = kwargs.
Proof.
  unfold construct.
  destruct (vertexai_init sdk _ _ (world s)) as [[e|[]] w1]; [done|].
  destruct (from_pretrained sdk _ w1) as [[e|m] w2]; [done|].
  intros [= <- <-]. done.
Qed.

Lemma init_inr kw s c s' :
  __init__ sdk kw s = (inr c, s') →
  kw !! "self" = None ∧
  _model_name c = default (PStr "imagetext") (kw !! "model") ∧
  _project_id c = default PNone (kw !! "project_id") ∧
  _location c = default PNone (kw !! "location") ∧
  _kwargs c = extra_options kw.
Proof.
  destruct (kw !! "self") as [v|] eqn:Hself.
  - unfold __init__. rewrite Hself. done.
  - rewrite init_construct by done. intros H%construct_inr. done.
Qed.

Lemma extra_options_reserved_free kw : reserved_free (extra_options kw).
Proof.
  unfold reserved_free, extra_options. by simplify_map_eq.
Qed.

Lemma extra_options_lookup kw k :
  k ≠ "model" → k ≠ "project_id" → k ≠ "location" →
  extra_options kw !! k = kw !! k.
Proof. intros. unfold extra_options. by simplify_map_eq. Qed.

Lemma extra_options_insert_named kwargs (m p l : pyval) :
  reserved_free kwargs →
  extra_options
    (<["model" := m]> (<["project_id" := p]> (<["location" := l]> kwargs)))
  = kwargs.
Proof.
  intros (Hm & Hp & Hl). unfold extra_options. apply map_eq. intros k.
  destruct (decide (k = "model")) as [->|]; [by simplify_map_eq|].
  destruct (decide (k = "project_id")) as [->|]; [by simplify_map_eq|].
  destruct (decide (k = "location")) as [->|]; by simplify_map_eq.
Qed.

Lemma repeated_keyword_reserved_free kwargs :
  reserved_free kwargs →
  repeated_keyword ["model"; "project_id"; "location"] kwargs = None.
Proof.
  intros (Hm & Hp & Hl). unfold repeated_keyword. simpl.
  rewrite Hm, Hp, Hl. done.
Qed.

Lemma to_dict_outcome c s :
  reserved_free (_kwargs c) →
  to_dict (c, s) =
    match _kwargs c !! "obj" with
    | Some _ => (inl (TypeError "obj"), (c, s))
    | None => (inr (serialized c), (c, s))
    end.
Proof.
  intros H. unfold to_dict. unfold_M.
  rewrite (repeated_keyword_reserved_free _ H). unfold default_to_dict.
  rewrite !lookup_insert_ne by done.
  by destruct (_kwargs c !! "obj").
Qed.

Lemma to_dict_reserved_free c s :
  reserved_free (_kwargs c) → _kwargs c !! "obj" = None →
  to_dict (c, s) = (inr (serialized c), (c, s)).
Proof. intros H Hobj. by rewrite to_dict_outcome, Hobj. Qed.

Lemma to_dict_inr c s d :
  reserved_free (_kwargs c) → (to_dict (c, s)).1 = inr d →
  d = serialized c ∧ _kwargs c !! "obj" = None.
Proof.
  intros H. rewrite to_dict_outcome by done.
  destruct (_kwargs c !! "obj"); simpl; [done|]. by intros [= <-].
Qed.

Lemma to_dict_self c s : (to_dict (c, s)).2 = (c, s).
Proof.
  unfold to_dict. unfold_M.
  destruct (repeated_keyword _ (_kwargs c)); [done|].
  by destruct (default_to_dict _).
Qed.

Lemma new_Image_nonempty bs : bs ≠ [] → new_Image bs = inr (Image bs).
Proof. by destruct bs. Qed.

Lemma run_self image c s : (run sdk image (c, s)).2.1 = c.
Proof.
  unfold run, call_get_captions. unfold_M.
  destruct (new_Image (data image)) as [e0|img]; [done|]. simpl.
  destruct (repeated_keyword _ (_kwargs c)); [done|]. simpl.
  by destruct (get_captions sdk _ _ _ (world s)) as [[e|v] w].
Qed.

Lemma from_dict_serialized c s :
  from_dict sdk (serialized c) s =
    __init__ sdk
      (<["model" := _model_name c]>
         (<["project_id" := _project_id c]>
            (<["location" := _location c]> (_kwargs c)))) s.
Proof. reflexivity. Qed.

Lemma init_inr_self_free kw s c s' :
  __init__ sdk kw s = (inr c, s') → _kwargs c !! "self" = None.
Proof.
  intros (Hself & _ & _ & _ & ->)%init_inr.
  by rewrite extra_options_lookup.
Qed.

Lemma init_inr_reserved_free kw s c s' :
  __init__ sdk kw s = (inr c, s') → reserved_free (_kwargs c).
Proof.
  intros (_ & _ & _ & _ & ->)%init_inr. apply extra_options_reserved_free.
Qed.

Lemma init_inr_obj_free kw s c s' :
  __init__ sdk kw s = (inr c, s') → kw !! "obj" = None →
  _kwargs c !! "obj" = None.
Proof.
  intros (_ & _ & _ & _ & ->)%init_inr Hobj.
  by rewrite extra_options_lookup.
Qed.

(** Reconstruction from [to_dict]'s output is the constructor's body run on
    the stored fields. *)
Lemma from_dict_serialized_construct c s :
  reserved_free (_kwargs c) → _kwargs c !! "self" = None →
  from_dict sdk (serialized c) s =
    construct sdk (_model_name c) (_project_id c) (_location c) (_kwargs c) s.
Proof.
  intros Hres Hself. rewrite from_dict_serialized, init_construct.
  - rewrite extra_options_insert_named by done. by simplify_map_eq.
  - by simplify_map_eq.
Qed.

Lemma construct_calls model project_id location kwargs s :
  ∃ rest,
    calls (construct sdk model project_id location kwargs s).2 =
      (calls s ++ CallInit project_id location :: rest)%list.
Proof.
  unfold construct.
  destruct (vertexai_init sdk _ _ (world s)) as [[e|[]] w1]; simpl.
  - by exists [].
  - exists [CallFromPretrained model].
    destruct (from_pretrained sdk _ w1) as [[e|m] w2]; simpl;
      by rewrite <- app_assoc.
Qed.

Lemma repeated_keyword_image_None kwargs :
  kwargs !! "image" = None → repeated_keyword ["image"] kwargs = None.
Proof. intros H. unfold repeated_keyword. simpl. by rewrite H. Qed.

Lemma repeated_keyword_image_Some kwargs v :
  kwargs !! "image" = Some v → repeated_keyword ["image"] kwargs = Some "image".
Proof. intros H. unfold repeated_keyword. simpl. by rewrite H. Qed.

(** An empty payload stops [run] at [Image]: nothing is asked of the
    client. *)
Lemma run_empty image c s :
  data image = [] →
  run sdk image (c, s) =
    (inl (ValueError "Either image_bytes or gcs_uri must be provided."),
     (c, s)).
Proof. intros Hdata. unfold run. by rewrite Hdata. Qed.

Lemma run_call image c s :
  data image ≠ [] →
  _kwargs c !! "image" = None →
  run sdk image (c, s) =
    match get_captions sdk (_model c) (Image (data image)) (_kwargs c)
            (world s) with
    | (inl e, w) => (inl e, (c, after_get_captions image c s w))
    | (inr v, w) =>
        (inr {[ "captions" := v ]}, (c, after_get_captions image c s w))
    end.
Proof.
  intros Hdata Himage. unfold run, call_get_captions.
  rewrite (new_Image_nonempty _ Hdata). unfold_M.
  rewrite (repeated_keyword_image_None _ Himage). simpl.
  by destruct (get_captions sdk _ _ _ (world s)) as [[e|v] w].
Qed.

Lemma run_clash image c s v :
  data image ≠ [] →
  _kwargs c !! "image" = Some v →
  run sdk image (c, s) = (inl (TypeError "image"), (c, s)).
Proof.
  intros Hdata Himage. unfold run, call_get_captions.
  rewrite (new_Image_nonempty _ Hdata). unfold_M.
  by rewrite (repeated_keyword_image_Some _ _ Himage).
Qed.

(** *** Serialisation *)

(** C1, amended: for a component [c] built by the constructor from keywords
    none of which is named [obj], [to_dict] returns the type identifier
    together with [model], [project_id], [location] and the extra options,
    and whenever the SDK lets construction through, [from_dict] of that
    dictionary returns a component with the same [model], [project_id],
    [location] and extra options. *)
Theorem from_dict_to_dict_roundtrip kw s0 c s1 s w1 m w2 :
  __init__ sdk kw s0 = (inr c, s1) →
  kw !! "obj" = None →
  vertexai_init sdk (_project_id c) (_location c) (world s) = (inr (), w1) →
  from_pretrained sdk (_model_name c) w1 = (inr m, w2) →
  ∃ d c' s',
    to_dict (c, s) = (inr d, (c, s)) ∧
    d !! "type" = Some (PStr qualified_name) ∧
    d !! "init_parameters" =
      Some (PDict (<["model" := _model_name c]>
                     (<["project_id" := _project_id c]>
                        (<["location" := _location c]> (_kwargs c))))) ∧
    from_dict sdk d s = (inr c', s') ∧
    _model_name c' = _model_name c ∧ _project_id c' = _project_id c ∧
    _location c' = _location c ∧ _kwargs c' = _kwargs c.
Proof.
  intros Hc Hobj Hinit Hload.
  pose proof (init_inr_reserved_free _ _ _ _ Hc) as Hres.
  pose proof (init_inr_self_free _ _ _ _ Hc) as Hself.
  pose proof (init_inr_obj_free _ _ _ _ Hc Hobj) as Hfree.
  eexists (serialized c), _, _. split; [by apply to_dict_reserved_free|].
  split; [done|]. split; [done|].
  rewrite from_dict_serialized_construct by done.
  unfold construct. rewrite Hinit, Hload. done.
Qed.

(** C6: whenever [to_dict] of a constructed component returns a dictionary
    [d], [from_dict d] runs the whole constructor again in whatever state it
    is called: it calls [vertexai.init] first, then [from_pretrained], and
    the component's handle is the one that call returned.  Two calls in a
    row log in twice. *)
Theorem from_dict_reruns_construction kw s0 c s1 s d :
  __init__ sdk kw s0 = (inr c, s1) →
  (to_dict (c, s)).1 = inr d →
  (∀ s', from_dict sdk d s' =
           construct sdk (_model_name c) (_project_id c) (_location c)
             (_kwargs c) s') ∧
  (∀ s', ∃ rest1 rest2,
      calls (from_dict sdk d (from_dict sdk d s').2).2 =
        (calls s' ++ CallInit (_project_id c) (_location c) :: rest1
           ++ CallInit (_project_id c) (_location c) :: rest2)%list).
Proof.
  intros Hc Hd.
  pose proof (init_inr_reserved_free _ _ _ _ Hc) as Hres.
  pose proof (init_inr_self_free _ _ _ _ Hc) as Hself.
  destruct (to_dict_inr _ _ _ Hres Hd) as [-> _].
  split; [intros s'; by apply from_dict_serialized_construct|].
  intros s'. rewrite !from_dict_serialized_construct by done.
  destruct (construct_calls (_model_name c) (_project_id c) (_location c)
              (_kwargs c) s') as [rest1 H1].
  destruct (construct_calls (_model_name c) (_project_id c) (_location c)
              (_kwargs c)
              (construct sdk (_model_name c) (_project_id c) (_location c)
                 (_kwargs c) s').2) as [rest2 H2].
  exists rest1, rest2. rewrite H2, H1. by rewrite <- app_assoc.
Qed.

(** C7: data whose ["type"] entry is missing, or is anything but the
    component's type identifier, is rejected with a
    [DeserializationError]; nothing is constructed and the SDK is not
    called. *)
Theorem from_dict_rejects_bad_type data s :
  data !! "type" ≠ Some (PStr qualified_name) →
  ∃ detail, from_dict sdk data s = (inl (DeserializationError detail), s).
Proof.
  intros Htype. unfold from_dict, default_from_dict.
  destruct (data !! "type") as [t|]; [|by eexists].
  destruct (py_eq_str t qualified_name) eqn:Ht; [|by eexists].
  destruct t; try done. simpl in Ht. apply bool_decide_eq_true in Ht.
  by subst.
Qed.

(** C10: after construction the extra options hold none of the keys
    ["model"], ["project_id"], ["location"]; [run] and [to_dict] leave the
    instance as it is, and every instance returned by [from_dict] has the
    same property.  So the merge of the extra options with the three named
    fields in [to_dict] never meets a repeated keyword: [to_dict] returns the
    serialised form, unless an option is named [obj] like the first
    parameter of [default_to_dict], which no named field is. *)
Theorem kwargs_reserved_free kw s0 c s1 :
  __init__ sdk kw s0 = (inr c, s1) →
  reserved_free (_kwargs c) ∧
  (∀ image s, (run sdk image (c, s)).2.1 = c) ∧
  (∀ s, (to_dict (c, s)).2 = (c, s)) ∧
  repeated_keyword ["model"; "project_id"; "location"] (_kwargs c) = None ∧
  (∀ s, (to_dict (c, s)).1 =
          match _kwargs c !! "obj" with
          | Some _ => inl (TypeError "obj")
          | None => inr (serialized c)
          end) ∧
  (∀ data s c' s',
      from_dict sdk data s = (inr c', s') → reserved_free (_kwargs c')).
Proof.
  intros Hc. pose proof (init_inr_reserved_free _ _ _ _ Hc) as Hres.
  split; [done|]. split; [intros; apply run_self|].
  split; [intros; apply to_dict_self|].
  split; [by apply repeated_keyword_reserved_free|].
  split.
  { intros s. rewrite to_dict_outcome by done.
    by destruct (_kwargs c !! "obj"). }
  intros data s c' s'. unfold from_dict, default_from_dict.
  destruct (data !! "type") as [t|]; [|done].
  destruct (py_eq_str t qualified_name); [|done].
  destruct (default (PDict ∅) (data !! "init_parameters")); try done.
  apply init_inr_reserved_free.
Qed.

(** *** Construction *)

(** C5: when the keywords bind and the login succeeds but
    [from_pretrained] raises for the model name, the constructor raises
    that same exception and returns no instance. *)
Theorem init_load_failure kw s w1 e w2 :
  kw !! "self" = None →
  vertexai_init sdk (default PNone (kw !! "project_id"))
    (default PNone (kw !! "location")) (world s) = (inr (), w1) →
  from_pretrained sdk (default (PStr "imagetext") (kw !! "model")) w1
    = (inl e, w2) →
  ∃ s', __init__ sdk kw s = (inl e, s') ∧ world s' = w2.
Proof.
  intros Hself Hinit Hload. rewrite init_construct by done.
  unfold construct. rewrite Hinit, Hload. by eexists.
Qed.

(** *** Captioning *)

(** C2: when the client's [get_captions] is called (the payload is not empty
    and no extra option is named [image]) and returns [v], [run] returns the
    dictionary whose only key is ["captions"], with [v] as its value. *)
Theorem run_returns_captions image c s v w :
  data image ≠ [] →
  _kwargs c !! "image" = None →
  get_captions sdk (_model c) (Image (data image)) (_kwargs c) (world s)
    = (inr v, w) →
  ∃ r s',
    run sdk image (c, s) = (inr r, (c, s')) ∧
    r !! "captions" = Some v ∧ dom r = {["captions"]} ∧
    world s' = w ∧
    calls s' =
      (calls s ++
         [CallGetCaptions (_model c) (Image (data image)) (_kwargs c)])%list.
Proof.
  intros Hdata Himage Hcall. rewrite run_call, Hcall by done.
  eexists _, _. split; [done|]. split; [done|].
  split; [by rewrite dom_singleton_L|]. done.
Qed.

(** C3: when the client's [get_captions] is called (the payload is not empty
    and no extra option is named [image]) and raises [e], [run] raises [e]
    itself; the client has been called once, and no result is returned. *)
Theorem run_propagates_failure image c s e w :
  data image ≠ [] →
  _kwargs c !! "image" = None →
  get_captions sdk (_model c) (Image (data image)) (_kwargs c) (world s)
    = (inl e, w) →
  ∃ s',
    run sdk image (c, s) = (inl e, (c, s')) ∧
    world s' = w ∧
    calls s' =
      (calls s ++
         [CallGetCaptions (_model c) (Image (data image)) (_kwargs c)])%list.
Proof.
  intros Hdata Himage Hcall. rewrite run_call, Hcall by done. by eexists.
Qed.

(** C4, amended: for a component constructed with extra options none of
    which is named [image], every [run] on a non-empty payload calls the
    client's [get_captions] once, with the wrapped payload and exactly those
    options: each keyword given to the constructor other than [model],
    [project_id] and [location], under its name and with its value, and
    nothing under those three names. *)
Theorem run_forwards_options kw s0 c s1 image s :
  __init__ sdk kw s0 = (inr c, s1) →
  kw !! "image" = None →
  data image ≠ [] →
  ∃ options,
    calls (run sdk image (c, s)).2.2 =
      (calls s ++
         [CallGetCaptions (_model c) (Image (data image)) options])%list ∧
    (∀ k, k ≠ "model" → k ≠ "project_id" → k ≠ "location" →
          options !! k = kw !! k) ∧
    options !! "model" = None ∧ options !! "project_id" = None ∧
    options !! "location" = None.
Proof.
  intros Hc Himage Hdata.
  pose proof (init_inr_reserved_free _ _ _ _ Hc) as (Hm & Hp & Hl).
  destruct (init_inr _ _ _ _ Hc) as (_ & _ & _ & _ & Hkw).
  assert (_kwargs c !! "image" = None) as Hfree.
  { rewrite Hkw. by rewrite extra_options_lookup. }
  exists (_kwargs c). split.
  { rewrite run_call by done.
    by destruct (get_captions sdk _ _ _ (world s)) as [[e|v] w]. }
  split; [|done]. intros k ? ? ?. rewrite Hkw. by apply extra_options_lookup.
Qed.

(** C8: [run] leaves the instance as it found it, with every attribute,
    and emits nothing through the logger. *)
Theorem run_frame image c s :
  (run sdk image (c, s)).2.1 = c ∧
  log_records (run sdk image (c, s)).2.2 = log_records s.
Proof.
  split; [apply run_self|].
  unfold run, call_get_captions. unfold_M.
  destruct (new_Image (data image)) as [e0|img]; [done|]. simpl.
  destruct (repeated_keyword _ (_kwargs c)); [done|]. simpl.
  by destruct (get_captions sdk _ _ _ (world s)) as [[e|v] w].
Qed.

(** C9: two byte streams with the same [data] make [run] behave the same:
    same call to the client, same result, same final state. *)
Theorem run_data_only image1 image2 c s :
  data image1 = data image2 →
  run sdk image1 (c, s) = run sdk image2 (c, s).
Proof. intros Hdata. unfold run. by rewrite Hdata. Qed.

End CaptionerProperties.

(** ** The properties on the test doubles *)

(** With a client that always answers [["a"; "b"]], [run] returns
    [{"captions": ["a", "b"]}] for every non-empty payload, as long as no
    option is named [image]. *)
Lemma stub_run_ab (c : VertexAIImageCaptioner pyval) image s :
  data image ≠ [] →
  _kwargs c !! "image" = None →
  (run (Stub.sdk (inr Stub.ab)) image (c, s)).1
    = inr {["captions" := Stub.ab]}.
Proof. intros Hdata H. by rewrite run_call. Qed.

(** On a payload without bytes the same client is not even asked, whether or
    not an option is named [image]: [Image] is evaluated first. *)
Lemma stub_run_empty_payload :
  run (Stub.sdk (inr Stub.ab)) Stub.empty_stream (Stub.captioner3, Stub.built)
    = (inl (ValueError "Either image_bytes or gcs_uri must be provided."),
       (Stub.captioner3, Stub.built)) ∧
  run (Stub.sdk (inr Stub.ab)) Stub.empty_stream
    (Stub.captioner_image, Stub.built)
    = (inl (ValueError "Either image_bytes or gcs_uri must be provided."),
       (Stub.captioner_image, Stub.built)).
Proof. split; reflexivity. Qed.

Lemma from_dict_to_dict_roundtrip_witness :
  __init__ (Stub.sdk (inr Stub.ab)) Stub.kw3 Stub.fresh
    = (inr Stub.captioner3, Stub.built) ∧
  Stub.kw3 !! "obj" = None ∧
  ∃ d c' s',
    to_dict (Stub.captioner3, Stub.built) = (inr d, (Stub.captioner3, Stub.built)) ∧
    d !! "type" = Some (PStr qualified_name) ∧
    d !! "init_parameters" =
      Some (PDict (<["model" := PStr "imagetext"]>
                     (<["project_id" := PStr "p"]>
                        (<["location" := PNone]>
                           {["number_of_results" := PInt 3]})))) ∧
    from_dict (Stub.sdk (inr Stub.ab)) d Stub.built = (inr c', s') ∧
    _model_name c' = PStr "imagetext" ∧ _project_id c' = PStr "p" ∧
    _location c' = PNone ∧ _kwargs c' = {["number_of_results" := PInt 3]}.
Proof.
  split; [reflexivity|]. split; [reflexivity|].
  apply (from_dict_to_dict_roundtrip (Stub.sdk (inr Stub.ab)) Stub.kw3
           Stub.fresh Stub.captioner3 Stub.built Stub.built 3
           (PStr "imagetext") 4); reflexivity.
Defined.

(** C1 as stated fails for an extra option named [obj]: the component is
    constructed and keeps the option, but [to_dict] raises [TypeError],
    because [default_to_dict] already takes the object under that name; no
    dictionary is produced to rebuild from. *)
Lemma to_dict_obj_option_raises :
  __init__ (Stub.sdk (inr Stub.ab)) Stub.kw_obj Stub.fresh
    = (inr Stub.captioner_obj, Stub.built) ∧
  _kwargs Stub.captioner_obj = {["obj" := PInt 1]} ∧
  to_dict (Stub.captioner_obj, Stub.built)
    = (inl (TypeError "obj"), (Stub.captioner_obj, Stub.built)) ∧
  ¬ ∃ d, to_dict (Stub.captioner_obj, Stub.built)
           = (inr d, (Stub.captioner_obj, Stub.built)).
Proof.
  split; [reflexivity|]. split; [reflexivity|]. split; [reflexivity|].
  intros [d Hd]. vm_compute in Hd. discriminate.
Qed.

Lemma from_dict_reruns_construction_witness :
  __init__ (Stub.sdk (inr Stub.ab)) Stub.kw3 Stub.fresh
    = (inr Stub.captioner3, Stub.built) ∧
  (to_dict (Stub.captioner3, Stub.built)).1 = inr (serialized Stub.captioner3) ∧
  (∀ s : state nat pyval,
      from_dict (Stub.sdk (inr Stub.ab)) (serialized Stub.captioner3) s =
        construct (Stub.sdk (inr Stub.ab)) (PStr "imagetext") (PStr "p")
          PNone {["number_of_results" := PInt 3]} s) ∧
  (∀ s : state nat pyval, ∃ rest1 rest2,
      calls (from_dict (Stub.sdk (inr Stub.ab)) (serialized Stub.captioner3)
               (from_dict (Stub.sdk (inr Stub.ab))
                  (serialized Stub.captioner3) s).2).2 =
        (calls s ++ CallInit (PStr "p") PNone :: rest1
           ++ CallInit (PStr "p") PNone :: rest2)%list).
Proof.
  split; [reflexivity|]. split; [reflexivity|].
  apply (from_dict_reruns_construction (Stub.sdk (inr Stub.ab)) Stub.kw3
           Stub.fresh Stub.captioner3 Stub.built Stub.built
           (serialized Stub.captioner3)); reflexivity.
Defined.

Lemma from_dict_rejects_bad_type_witness :
  ({["type" := PStr "haystack.components.builders.PromptBuilder"]}
     : gmap string pyval) !! "type" ≠ Some (PStr qualified_name) ∧
  ∃ detail,
    from_dict (Stub.sdk (inr Stub.ab))
      {["type" := PStr "haystack.components.builders.PromptBuilder"]}
      Stub.fresh
    = (inl (DeserializationError detail), Stub.fresh).
Proof.
  assert (({["type" := PStr "haystack.components.builders.PromptBuilder"]}
             : gmap string pyval) !! "type" ≠ Some (PStr qualified_name)) as H.
  { vm_compute. discriminate. }
  split; [exact H|].
  apply (from_dict_rejects_bad_type (Stub.sdk (inr Stub.ab)) _ Stub.fresh H).
Defined.

Lemma kwargs_reserved_free_witness :
  __init__ (Stub.sdk (inr Stub.ab)) Stub.kw_obj Stub.fresh
    = (inr Stub.captioner_obj, Stub.built) ∧
  reserved_free (_kwargs Stub.captioner_obj) ∧
  (∀ image (s : state nat pyval),
      (run (Stub.sdk (inr Stub.ab)) image (Stub.captioner_obj, s)).2.1
        = Stub.captioner_obj) ∧
  (∀ s : state nat pyval,
      (to_dict (Stub.captioner_obj, s)).2 = (Stub.captioner_obj, s)) ∧
  repeated_keyword ["model"; "project_id"; "location"]
    (_kwargs Stub.captioner_obj) = None ∧
  (∀ s : state nat pyval,
      (to_dict (Stub.captioner_obj, s)).1 =
        match _kwargs Stub.captioner_obj !! "obj" with
        | Some _ => inl (TypeError "obj")
        | None => inr (serialized Stub.captioner_obj)
        end) ∧
  (∀ data (s : state nat pyval) c' s',
      from_dict (Stub.sdk (inr Stub.ab)) data s = (inr c', s') →
      reserved_free (_kwargs c')).
Proof.
  split; [reflexivity|].
  apply (kwargs_reserved_free (Stub.sdk (inr Stub.ab)) Stub.kw_obj Stub.fresh
           Stub.captioner_obj Stub.built).
  reflexivity.
Defined.

Lemma init_load_failure_witness :
  Stub.kw_unknown !! "self" = None ∧
  ∃ s', __init__ (Stub.sdk (inr Stub.ab)) Stub.kw_unknown Stub.fresh
          = (inl (Exn "NotFound" "model not found"), s') ∧
        world s' = 2.
Proof.
  split; [reflexivity|].
  apply (init_load_failure (Stub.sdk (inr Stub.ab)) Stub.kw_unknown Stub.fresh
           1 (Exn "NotFound" "model not found") 2); reflexivity.
Defined.

Lemma run_returns_captions_witness :
  data Stub.robot ≠ [] ∧
  _kwargs Stub.captioner3 !! "image" = None ∧
  ∃ r s',
    run (Stub.sdk (inr Stub.ab)) Stub.robot (Stub.captioner3, Stub.built)
      = (inr r, (Stub.captioner3, s')) ∧
    r !! "captions" = Some (PList [PStr "a"; PStr "b"]) ∧
    dom r = {["captions"]} ∧
    world s' = 3 ∧
    calls s' =
      (calls Stub.built ++
         [CallGetCaptions (PStr "imagetext") (Image [x89; x50; x4e; x47])
            {["number_of_results" := PInt 3]}])%list.
Proof.
  assert (data Stub.robot ≠ []) as Hdata by discriminate.
  split; [exact Hdata|]. split; [reflexivity|].
  apply (run_returns_captions (Stub.sdk (inr Stub.ab)) Stub.robot
           Stub.captioner3 Stub.built Stub.ab 3 Hdata); reflexivity.
Defined.

Lemma run_propagates_failure_witness :
  data Stub.robot ≠ [] ∧
  _kwargs Stub.captioner3 !! "image" = None ∧
  ∃ s',
    run (Stub.sdk (inl Stub.quota)) Stub.robot (Stub.captioner3, Stub.built)
      = (inl (Exn "ResourceExhausted" "quota exceeded"), (Stub.captioner3, s')) ∧
    world s' = 3 ∧
    calls s' =
      (calls Stub.built ++
         [CallGetCaptions (PStr "imagetext") (Image [x89; x50; x4e; x47])
            {["number_of_results" := PInt 3]}])%list.
Proof.
  assert (data Stub.robot ≠ []) as Hdata by discriminate.
  split; [exact Hdata|]. split; [reflexivity|].
  apply (run_propagates_failure (Stub.sdk (inl Stub.quota)) Stub.robot
           Stub.captioner3 Stub.built Stub.quota 3 Hdata); reflexivity.
Defined.

Lemma run_forwards_options_witness :
  __init__ (Stub.sdk (inr Stub.ab)) Stub.kw3 Stub.fresh
    = (inr Stub.captioner3, Stub.built) ∧
  Stub.kw3 !! "image" = None ∧
  data Stub.robot ≠ [] ∧
  ∃ options,
    calls (run (Stub.sdk (inr Stub.ab)) Stub.robot
             (Stub.captioner3, Stub.built)).2.2 =
      (calls Stub.built ++
         [CallGetCaptions (PStr "imagetext") (Image [x89; x50; x4e; x47])
            options])%list ∧
    (∀ k, k ≠ "model" → k ≠ "project_id" → k ≠ "location" →
          options !! k = Stub.kw3 !! k) ∧
    options !! "model" = None ∧ options !! "project_id" = None ∧
    options !! "location" = None.
Proof.
  assert (data Stub.robot ≠ []) as Hdata by discriminate.
  split; [reflexivity|]. split; [reflexivity|]. split; [exact Hdata|].
  apply (run_forwards_options (Stub.sdk (inr Stub.ab)) Stub.kw3 Stub.fresh
           Stub.captioner3 Stub.built Stub.robot Stub.built);
    [reflexivity | reflexivity | exact Hdata].
Defined.

Lemma run_data_only_witness :
  data Stub.robot = data Stub.robot_png ∧
  Stub.robot ≠ Stub.robot_png ∧
  run (Stub.sdk (inr Stub.ab)) Stub.robot (Stub.captioner3, Stub.built)
    = run (Stub.sdk (inr Stub.ab)) Stub.robot_png (Stub.captioner3, Stub.built).
Proof.
  split; [reflexivity|]. split; [discriminate|].
  apply (run_data_only (Stub.sdk (inr Stub.ab)) Stub.robot Stub.robot_png
           Stub.captioner3 Stub.built); reflexivity.
Defined.

(** C4 as stated fails for an extra option named [image]: the component is
    constructed and keeps the option, but on a non-empty payload [run]
    raises [TypeError] at the call site and the client's [get_captions] is
    never called.  It fails for a payload without bytes too, whatever the
    options: [Image] raises [ValueError] and the client is not called. *)
Lemma run_image_option_not_forwarded :
  __init__ (Stub.sdk (inr Stub.ab)) Stub.kw_image Stub.fresh
    = (inr Stub.captioner_image, Stub.built) ∧
  _kwargs Stub.captioner_image = {["image" := PInt 0]} ∧
  data Stub.robot = [x89; x50; x4e; x47] ∧
  run (Stub.sdk (inr Stub.ab)) Stub.robot (Stub.captioner_image, Stub.built)
    = (inl (TypeError "image"), (Stub.captioner_image, Stub.built)) ∧
  (¬ ∃ options,
      calls (run (Stub.sdk (inr Stub.ab)) Stub.robot
               (Stub.captioner_image, Stub.built)).2.2 =
        (calls Stub.built ++
           [CallGetCaptions (PStr "imagetext") (Image [x89; x50; x4e; x47])
              options])%list) ∧
  __init__ (Stub.sdk (inr Stub.ab)) Stub.kw3 Stub.fresh
    = (inr Stub.captioner3, Stub.built) ∧
  data Stub.empty_stream = [] ∧
  calls (run (Stub.sdk (inr Stub.ab)) Stub.empty_stream
           (Stub.captioner3, Stub.built)).2.2 = calls Stub.built.
Proof.
  split; [reflexivity|]. split; [reflexivity|]. split; [reflexivity|].
  split; [reflexivity|].
  split; [|by repeat split].
  intros [options H]. vm_compute in H. discriminate.
Qed.

(** ** Further properties of construction, serialisation and captioning *)

Section CaptionerComposition.
Context {World Handle : Type}.
Variable sdk : SDK World Handle.

#[local] Abbreviation component := (VertexAIImageCaptioner Handle).
#[local] Abbreviation state := (state World Handle).

Implicit Types (kw kwargs data : gmap string pyval) (s : state) (c : component).

Lemma insert_named_extra_options kw (m p l : pyval) :
  <["model" := m]> (<["project_id" := p]> (<["location" := l]> (extra_options kw)))
  = <["model" := m]> (<["project_id" := p]> (<["location" := l]> kw)).
Proof.
  unfold extra_options. apply map_eq. intros k.
  destruct (decide (k = "model")) as [->|]; [by simplify_map_eq|].
  destruct (decide (k = "project_id")) as [->|]; [by simplify_map_eq|].
  destruct (decide (k = "location")) as [->|]; by simplify_map_eq.
Qed.


(** X1: when the login [vertexai.init] raises [e], the constructor raises
    that same [e], returns no instance, and [from_pretrained] is never
    called: the only SDK call made is the login, with the given project and
    location. *)
Theorem init_login_failure kw s e w1 :
  kw !! "self" = None →
  vertexai_init sdk (default PNone (kw !! "project_id"))
    (default PNone (kw !! "location")) (world s) = (inl e, w1) →
  ∃ s', __init__ sdk kw s = (inl e, s') ∧ world s' = w1 ∧
        calls s' =
          (calls s ++ [CallInit (default PNone (kw !! "project_id"))
                         (default PNone (kw !! "location"))])%list.
Proof.
  intros Hself Hinit. rewrite init_construct by done.
  unfold construct. rewrite Hinit. by eexists.
Qed.

(** X2: whatever the keywords and whatever the SDK answers, constructing
    makes no SDK call, or the login alone, or the login followed by loading
    the model; it never asks for captions, and the extra options reach no
    SDK call. *)
Theorem init_sdk_calls kw s :
  let p := default PNone (kw !! "project_id") in
  let l := default PNone (kw !! "location") in
  let m := default (PStr "imagetext") (kw !! "model") in
  let after := calls (__init__ sdk kw s).2 in
  after = calls s ∨
  after = (calls s ++ [CallInit p l])%list ∨
  after = (calls s ++ [CallInit p l; CallFromPretrained m])%list.
Proof.
  simpl. destruct (kw !! "self") as [v|] eqn:Hself.
  - left. unfold __init__. by rewrite Hself.
  - right. rewrite init_construct by done. unfold construct.
    destruct (vertexai_init sdk _ _ (world s)) as [[e|[]] w1]; [by left|].
    right. destruct (from_pretrained sdk _ w1) as [[e|h] w2]; simpl;
      by rewrite <- app_assoc.
Qed.

(** X3: the constructor accepts an extra option named [image] and stores it,
    but the component it returns cannot caption: every [run] raises, leaving
    the instance, the world and the recorded calls as they were, and on a
    non-empty payload what it raises is the [TypeError] of the repeated
    keyword. *)
Theorem run_image_option_raises kw s0 c s1 v :
  __init__ sdk kw s0 = (inr c, s1) →
  kw !! "image" = Some v →
  _kwargs c !! "image" = Some v ∧
  (∀ image s, ∃ e, run sdk image (c, s) = (inl e, (c, s))) ∧
  (∀ image s, data image ≠ [] →
              run sdk image (c, s) = (inl (TypeError "image"), (c, s))).
Proof.
  intros (_ & _ & _ & _ & Hkw)%init_inr Himage.
  assert (_kwargs c !! "image" = Some v) as Hopt.
  { rewrite Hkw. by rewrite extra_options_lookup. }
  split; [done|]. split.
  - intros image s. destruct (data image) as [|b bs] eqn:Hdata.
    + eexists. by apply run_empty.
    + eexists. eapply run_clash; [by rewrite Hdata|done].
  - intros image s Hdata. by eapply run_clash.
Qed.

(** X4: [run] makes at most one SDK call, a [get_captions] call with the
    stored handle, the wrapped bytes and the stored options; it never logs
    in again and never reloads the model. *)
Theorem run_sdk_calls image c s :
  calls (run sdk image (c, s)).2.2 = calls s ∨
  calls (run sdk image (c, s)).2.2 =
    (calls s ++
       [CallGetCaptions (_model c) (Image (data image)) (_kwargs c)])%list.
Proof.
  destruct (data image) as [|b bs] eqn:Hdata.
  { left. by rewrite run_empty. }
  assert (data image ≠ []) as Hne by (by rewrite Hdata).
  rewrite <- Hdata.
  destruct (_kwargs c !! "image") as [v|] eqn:Himage.
  - left. by rewrite (run_clash _ _ _ _ _ Hne Himage).
  - right. rewrite run_call by done.
    by destruct (get_captions sdk _ _ _ (world s)) as [[e|r] w].
Qed.

(** X5: nothing is remembered between two runs: running twice on the same
    non-empty image calls the client twice, the second call meets the world
    the first one left, and the second result is what the client answers
    then. *)
Theorem run_twice image c s :
  data image ≠ [] →
  _kwargs c !! "image" = None →
  let ask := get_captions sdk (_model c) (Image (data image)) (_kwargs c) in
  let call := CallGetCaptions (_model c) (Image (data image)) (_kwargs c) in
  let first := run sdk image (c, s) in
  let second := run sdk image first.2 in
  calls second.2.2 = (calls s ++ [call; call])%list ∧
  world second.2.2 = (ask (ask (world s)).2).2 ∧
  second.1 =
    match (ask (ask (world s)).2).1 with
    | inl e => inl e
    | inr r => inr {[ "captions" := r ]}
    end.
Proof.
  intros Hdata Himage. simpl. rewrite (run_call _ image c s Hdata Himage).
  destruct (get_captions sdk _ _ _ (world s)) as [[e1|r1] w1]; simpl;
    rewrite run_call by done; simpl;
    destruct (get_captions sdk _ _ _ w1) as [[e2|r2] w2]; simpl;
    by rewrite <- app_assoc.
Qed.

(** X6: [to_dict] of a component constructed from keywords [kw], none of
    them named [obj], gives back [kw] under ["init_parameters"], with
    [model], [project_id] and [location] written out at their defaults where
    [kw] left them out; when [kw] names all three, it gives back [kw]
    itself. *)
Theorem to_dict_init_keywords kw s0 c s1 :
  __init__ sdk kw s0 = (inr c, s1) →
  kw !! "obj" = None →
  (∀ s, to_dict (c, s) =
          (inr (serialized_as
                  (<["model" := default (PStr "imagetext") (kw !! "model")]>
                     (<["project_id" := default PNone (kw !! "project_id")]>
                        (<["location" := default PNone (kw !! "location")]>
                           kw)))),
           (c, s))) ∧
  (is_Some (kw !! "model") → is_Some (kw !! "project_id") →
   is_Some (kw !! "location") →
   ∀ s, to_dict (c, s) = (inr (serialized_as kw), (c, s))).
Proof.
  intros Hc Hobj.
  pose proof (init_inr_reserved_free _ _ _ _ _ Hc) as Hres.
  pose proof (init_inr_obj_free _ _ _ _ _ Hc Hobj) as Hfree.
  destruct (init_inr _ _ _ _ _ Hc) as (_ & Hm & Hp & Hl & Hkw).
  assert (∀ s, to_dict (c, s) =
    (inr (serialized_as
            (<["model" := default (PStr "imagetext") (kw !! "model")]>
               (<["project_id" := default PNone (kw !! "project_id")]>
                  (<["location" := default PNone (kw !! "location")]>
                     kw)))), (c, s))) as Hto.
  { intros s. rewrite to_dict_reserved_free by done. unfold serialized.
    by rewrite Hm, Hp, Hl, Hkw, insert_named_extra_options. }
  split; [done|].
  intros [m Hkm] [p Hkp] [l Hkl] s. rewrite Hto, Hkm, Hkp, Hkl. simpl.
  rewrite (insert_id kw "location" l) by done.
  rewrite (insert_id kw "project_id" p) by done.
  by rewrite (insert_id kw "model" m).
Qed.

(** X7: the serialised form is a fixed point of the round trip: when
    [to_dict] of a constructed component returns [d] and [from_dict d]
    returns a component, [to_dict] of that component returns [d] again, so
    the handle it was given leaves no trace in it. *)
Theorem to_dict_from_dict_to_dict kw s0 c s1 s d s2 c' s3 (st : state) :
  __init__ sdk kw s0 = (inr c, s1) →
  (to_dict (c, s)).1 = inr d →
  from_dict sdk d s2 = (inr c', s3) →
  to_dict (c', st) = (inr d, (c', st)).
Proof.
  intros Hc Hd Hc'.
  pose proof (init_inr_reserved_free _ _ _ _ _ Hc) as Hres.
  pose proof (init_inr_self_free _ _ _ _ _ Hc) as Hself.
  destruct (to_dict_inr _ _ _ Hres Hd) as [-> Hobj].
  rewrite from_dict_serialized_construct in Hc' by done.
  apply construct_inr in Hc' as (Hm & Hp & Hl & Hkw).
  rewrite to_dict_reserved_free by (by rewrite Hkw).
  unfold serialized. by rewrite Hm, Hp, Hl, Hkw.
Qed.


End CaptionerComposition.

Lemma init_login_failure_witness :
  Stub.kw3 !! "self" = None ∧
  ∃ s', __init__ Stub.denied Stub.kw3 Stub.fresh
          = (inl (Exn "DefaultCredentialsError" "no credentials"), s') ∧
        world s' = 1 ∧
        calls s' = (calls Stub.fresh ++ [CallInit (PStr "p") PNone])%list.
Proof.
  split; [reflexivity|].
  apply (init_login_failure Stub.denied Stub.kw3 Stub.fresh
           (Exn "DefaultCredentialsError" "no credentials") 1); reflexivity.
Defined.

Lemma run_image_option_raises_witness :
  __init__ (Stub.sdk (inr Stub.ab)) Stub.kw_image Stub.fresh
    = (inr Stub.captioner_image, Stub.built) ∧
  Stub.kw_image !! "image" = Some (PInt 0) ∧
  _kwargs Stub.captioner_image !! "image" = Some (PInt 0) ∧
  (∀ image (s : state nat pyval), ∃ e,
      run (Stub.sdk (inr Stub.ab)) image (Stub.captioner_image, s)
        = (inl e, (Stub.captioner_image, s))) ∧
  (∀ image (s : state nat pyval), data image ≠ [] →
      run (Stub.sdk (inr Stub.ab)) image (Stub.captioner_image, s)
        = (inl (TypeError "image"), (Stub.captioner_image, s))).
Proof.
  split; [reflexivity|]. split; [reflexivity|].
  apply (run_image_option_raises (Stub.sdk (inr Stub.ab)) Stub.kw_image
           Stub.fresh Stub.captioner_image Stub.built (PInt 0)); reflexivity.
Defined.

Lemma run_twice_witness :
  data Stub.robot ≠ [] ∧
  _kwargs Stub.captioner3 !! "image" = None ∧
  calls (run Stub.counting Stub.robot
           (run Stub.counting Stub.robot (Stub.captioner3, Stub.built)).2).2.2
    = (calls Stub.built ++
         [CallGetCaptions (PStr "imagetext") (Image [x89; x50; x4e; x47])
            {["number_of_results" := PInt 3]};
          CallGetCaptions (PStr "imagetext") (Image [x89; x50; x4e; x47])
            {["number_of_results" := PInt 3]}])%list ∧
  world (run Stub.counting Stub.robot
           (run Stub.counting Stub.robot (Stub.captioner3, Stub.built)).2).2.2
    = 4 ∧
  (run Stub.counting Stub.robot
     (run Stub.counting Stub.robot (Stub.captioner3, Stub.built)).2).1
    = inr {["captions" := PList [PInt 3]]}.
Proof.
  assert (data Stub.robot ≠ []) as Hdata by discriminate.
  split; [exact Hdata|]. split; [reflexivity|].
  apply (run_twice Stub.counting Stub.robot Stub.captioner3 Stub.built Hdata);
    reflexivity.
Defined.

Lemma to_dict_init_keywords_witness :
  __init__ (Stub.sdk (inr Stub.ab)) Stub.kw_full Stub.fresh
    = (inr Stub.captioner_full, Stub.built_full) ∧
  Stub.kw_full !! "obj" = None ∧
  is_Some (Stub.kw_full !! "model") ∧ is_Some (Stub.kw_full !! "project_id") ∧
  is_Some (Stub.kw_full !! "location") ∧
  ∀ s : state nat pyval,
    to_dict (Stub.captioner_full, s)
      = (inr (serialized_as Stub.kw_full), (Stub.captioner_full, s)).
Proof.
  assert (__init__ (Stub.sdk (inr Stub.ab)) Stub.kw_full Stub.fresh
            = (inr Stub.captioner_full, Stub.built_full)) as Hc
    by reflexivity.
  assert (Stub.kw_full !! "obj" = None) as Hobj by reflexivity.
  assert (is_Some (Stub.kw_full !! "model")) as Hm by (vm_compute; eauto).
  assert (is_Some (Stub.kw_full !! "project_id")) as Hp by (vm_compute; eauto).
  assert (is_Some (Stub.kw_full !! "location")) as Hl by (vm_compute; eauto).
  split; [exact Hc|]. split; [exact Hobj|]. split; [exact Hm|].
  split; [exact Hp|]. split; [exact Hl|].
  exact (proj2 (to_dict_init_keywords (Stub.sdk (inr Stub.ab)) Stub.kw_full
                  Stub.fresh Stub.captioner_full Stub.built_full Hc Hobj)
           Hm Hp Hl).
Defined.

Lemma to_dict_from_dict_to_dict_witness :
  __init__ (Stub.sdk (inr Stub.ab)) Stub.kw3 Stub.fresh
    = (inr Stub.captioner3, Stub.built) ∧
  (to_dict (Stub.captioner3, Stub.built)).1 = inr (serialized Stub.captioner3) ∧
  from_dict (Stub.sdk (inr Stub.ab)) (serialized Stub.captioner3) Stub.built
    = (inr Stub.captioner3, Stub.rebuilt) ∧
  to_dict (Stub.captioner3, Stub.rebuilt)
    = (inr (serialized Stub.captioner3), (Stub.captioner3, Stub.rebuilt)).
Proof.
  split; [reflexivity|]. split; [reflexivity|]. split; [reflexivity|].
  apply (to_dict_from_dict_to_dict (Stub.sdk (inr Stub.ab)) Stub.kw3
           Stub.fresh Stub.captioner3 Stub.built Stub.built
           (serialized Stub.captioner3) Stub.built Stub.captioner3
           Stub.rebuilt Stub.rebuilt); reflexivity.
Defined.

